(** * deepaas.model: the model registry and the model wrapper

    A shallow embedding of [deepaas/model.py] and the properties of its
    registry ([register_models]) and of [ModelWrapper].

    Python objects live in a store and are referred to by location, so that
    "the wrapper's reference to its model" and "the state of the model" are
    two different things.  Code that can raise runs in a state-and-exception
    monad; as in Python, the effects made before an exception is raised are
    kept. *)

From stdpp Require Import gmap strings list fin_maps.

Set Warnings "-register-all".

(** ** Python values and exceptions *)

(** The values that cross the wrapper: arguments given to a model and what it
    returns.  A [dict] with string keys is kept as the list of its items. *)
Inductive value :=
| VNone
| VBool (b : bool)
| VInt (n : Z)
| VStr (s : string)
| VList (l : list value)
| VDict (items : list (string * value)).

(** The exception classes that [model.py] tells apart.  A constructor stands
    for the instances of the class, subclasses included.
    - [NotImplementedError], [AttributeError], [TypeError]: the builtins;
    - [HTTPNotImplemented description]: [werkzeug.exceptions.NotImplemented],
      the HTTP 501 error, which is an [Exception] but not a
      [NotImplementedError];
    - [OtherException cls msg]: any other instance of [Exception];
    - [NonException cls]: a [BaseException] that is not an [Exception]
      ([KeyboardInterrupt], [SystemExit], [GeneratorExit]). *)
Inductive exn :=
| NotImplementedError (msg : string)
| AttributeError (msg : string)
| TypeError
| HTTPNotImplemented (description : string)
| OtherException (cls msg : string)
| NonException (cls : string).

(** [isinstance(e, Exception)] *)
Definition is_Exception (e : exn) : bool :=
  match e with
  | NonException _ => false
  | _ => true
  end.

(** [isinstance(e, NotImplementedError)] *)
Definition is_NotImplementedError (e : exn) : bool :=
  match e with
  | NotImplementedError _ => true
  | _ => false
  end.

(** [isinstance(e, AttributeError)] *)
Definition is_AttributeError (e : exn) : bool :=
  match e with
  | AttributeError _ => true
  | _ => false
  end.

(** [isinstance(e, werkzeug.exceptions.NotImplemented)] *)
Definition is_HTTPNotImplemented (e : exn) : bool :=
  match e with
  | HTTPNotImplemented _ => true
  | _ => false
  end.

(** The HTTP status code of a werkzeug exception, [None] for the others. *)
Definition http_code (e : exn) : option Z :=
  match e with
  | HTTPNotImplemented _ => Some 501%Z
  | _ => None
  end.

(** ** Computations that may raise *)

Inductive result (A : Type) :=
| Returns (a : A)
| Raises (e : exn).
Arguments Returns {A} a.
Arguments Raises {A} e.

(** A computation over a state [S]: it ends by returning or by raising, and
    in both cases leaves a state behind. *)
Definition M (S A : Type) : Type := S → result A * S.

Global Instance M_ret {S} : MRet (M S) := λ A a s, (Returns a, s).

Global Instance M_bind {S} : MBind (M S) := λ A B k m s,
  match m s with
  | (Returns a, s') => k a s'
  | (Raises e, s') => (Raises e, s')
  end.

Definition raise {S A} (e : exn) : M S A := λ s, (Raises e, s).

Definition gets {S A} (f : S → A) : M S A := λ s, (Returns (f s), s).

Definition modify {S} (f : S → S) : M S unit := λ s, (Returns tt, f s).

(** [try: body / except <classes>: handler].  [caught e] says whether [e] is
    an instance of one of the classes of the clause; other exceptions go
    through. *)
Definition try_except {S A} (body : M S A) (caught : exn → bool)
    (handler : exn → M S A) : M S A :=
  λ s, match body s with
       | (Returns a, s') => (Returns a, s')
       | (Raises e, s') => if caught e then handler e s' else (Raises e, s')
       end.

(** ** Objects *)

(** A method body: from the positional arguments and the instance's own data
    to an outcome and the data it leaves. *)
Definition method : Type := list value → M value value.

(** What [getattr] finds under a name: a method, or a plain attribute, which
    cannot be called. *)
Inductive attr :=
| Method (body : method)
| Data (v : value).

(** A model object: what its attribute names resolve to (instance and class
    attributes alike) and its own mutable data. *)
Record pyobj := PyObj {
  attrs : gmap string attr;
  data : value;
}.

(** A bare [object()]. *)
Global Instance pyobj_inhabited : Inhabited pyobj :=
  populate {| attrs := ∅; data := VNone |}.

(** A reference to an object is its index in the store. *)
Definition loc : Type := nat.
Definition store : Type := list pyobj.

(** The object a reference points to; a location that was never allocated
    reads as a bare [object()]. *)
Definition deref (h : store) (l : loc) : pyobj := h !!! l.

(** Creating an object gives a reference no other object has. *)
Definition alloc (o : pyobj) : M store loc := λ h, (Returns (length h), h ++ [o]).

(** What [getattr(o, a)] gives: the attribute together with the object it was
    found on (a bound method). *)
Definition bound : Type := loc * attr.

(** [getattr(o, a)] for the object at [l]. *)
Definition getattr (l : loc) (a : string) : M store bound := λ h,
  match attrs (deref h l) !! a with
  | Some x => (Returns (l, x), h)
  | None => (Raises (AttributeError a), h)
  end.

(** [meth(args...)] for [meth] obtained by [getattr]: the body runs on the
    object's data and what it leaves is written back; a plain attribute is
    not callable. *)
Definition call (meth : bound) (args : list value) : M store value :=
  match meth with
  | (l, Method body) => λ h,
      let o := deref h l in
      let '(r, d) := body args (data o) in
      (r, <[l := {| attrs := attrs o; data := d |}]> h)
  | (_, Data _) => raise TypeError
  end.

(** ** Classes *)

(** A member of a class body: the attribute it defines and whether it is
    decorated with [abc.abstractmethod]. *)
Record member := Member {
  abstract : bool;
  impl : attr;
}.

Definition abstractmethod (body : method) : member :=
  {| abstract := true; impl := Method body |}.
Definition plainmethod (body : method) : member :=
  {| abstract := false; impl := Method body |}.
Definition classattr (v : value) : member :=
  {| abstract := false; impl := Data v |}.

(** A class is the list of its members in resolution order: its own body
    first, then what it inherits. *)
Definition pyclass : Type := list (string * member).

(** What each name resolves to on the class: the first member of that name. *)
Definition members (c : pyclass) : gmap string member := list_to_map c.

(** [c.__abstractmethods__]: the names that resolve to an abstract method. *)
Definition abstractmethods (c : pyclass) : gset string :=
  dom (filter (λ nm, abstract nm.2 = true) (members c)).

(** [c()] for a class under [abc.ABCMeta] whose constructor takes no
    argument: refused while an abstract method is left. *)
Definition instantiate (c : pyclass) : M store loc :=
  if decide (abstractmethods c = ∅)
  then alloc {| attrs := impl <$> members c; data := VNone |}
  else raise TypeError.

(** ** [BaseModel] *)

Module BaseModel.

(** Every method of the abstract base ends in [raise NotImplementedError()];
    a call with the wrong number of arguments is a [TypeError]. *)
Definition predict_file : method := λ args,
  match args with
  | [path] => raise (NotImplementedError "")
  | _ => raise TypeError
  end.

Definition predict_data : method := λ args,
  match args with
  | [args] => raise (NotImplementedError "")
  | _ => raise TypeError
  end.

Definition predict_url : method := λ args,
  match args with
  | [args] => raise (NotImplementedError "")
  | _ => raise TypeError
  end.

Definition get_metadata : method := λ args,
  match args with
  | [] => raise (NotImplementedError "")
  | _ => raise TypeError
  end.

Definition train : method := λ args, raise (NotImplementedError "").

Definition get_train_args : method := λ args,
  match args with
  | [] => raise (NotImplementedError "")
  | _ => raise TypeError
  end.

Definition get_test_args : method := λ args,
  match args with
  | [] => raise (NotImplementedError "")
  | _ => raise TypeError
  end.

Definition cls : pyclass :=
  [ ("predict_file", abstractmethod predict_file);
    ("predict_data", abstractmethod predict_data);
    ("predict_url", abstractmethod predict_url);
    ("get_metadata", abstractmethod get_metadata);
    ("train", abstractmethod train);
    ("get_train_args", abstractmethod get_train_args);
    ("get_test_args", abstractmethod get_test_args) ].

End BaseModel.

(** ** [TestModel] *)

Module TestModel.

Definition predict_file : method := λ args,
  match args with
  | [path] => BaseModel.predict_file [path]
  | _ => raise TypeError
  end.

Definition predict_data : method := λ args,
  match args with
  | [data] => BaseModel.predict_data [data]
  | _ => raise TypeError
  end.

Definition predict_url : method := λ args,
  match args with
  | [url] => BaseModel.predict_url [url]
  | _ => raise TypeError
  end.

Definition train : method := λ args, BaseModel.train args.

Definition get_train_args : method := λ args, mret (VDict []).

Definition get_test_args : method := λ args, mret (VDict []).

Definition get_metadata : method := λ args,
  match args with
  | [] =>
      let d := VDict
        [ ("id", VStr "0");
          ("name", VStr "deepaas-test");
          ("description",
            VStr ("This is not a model at all, just a placeholder " +:+
                  "for testing the API functionality. If you are " +:+
                  "seeing this, it is because DEEPaaS could not " +:+
                  "load a valid model."));
          ("author", VStr "Alvaro Lopez Garcia");
          ("version", VStr "0.0.1") ] in
      mret d
  | _ => raise TypeError
  end.

(** [class TestModel(BaseModel)]: its own body, then the inherited one. *)
Definition cls : pyclass :=
  [ ("name", classattr (VStr "deepaas-test"));
    ("predict_file", plainmethod predict_file);
    ("predict_data", plainmethod predict_data);
    ("predict_url", plainmethod predict_url);
    ("train", plainmethod train);
    ("get_train_args", plainmethod get_train_args);
    ("get_test_args", plainmethod get_test_args);
    ("get_metadata", plainmethod get_metadata) ] ++ BaseModel.cls.

End TestModel.

(** ** [catch_error] *)

(** The decorator: a [NotImplementedError] that leaves [f] becomes the HTTP
    error; everything else goes through. *)
Definition catch_error {S} (f : list value → M S value) : list value → M S value :=
  λ args,
    try_except (f args) is_NotImplementedError
      (λ _, raise (HTTPNotImplemented
                     ("Model does not implement " +:+ "this functionality"))).

(** ** [ModelWrapper] *)

Module ModelWrapper.

(** The two fields that [__init__] sets. *)
Record t := Build {
  name : string;
  model : loc;
}.

Global Instance t_eq_dec : EqDecision t.
Proof. solve_decision. Defined.

(** [ModelWrapper(name, model)] *)
Definition init (name : string) (model : loc) : t :=
  {| name := name; model := model |}.

(** What a method of the wrapper runs on: the instance and the store. *)
Record env := Env {
  self : t;
  objs : store;
}.

(** Code that touches the store only. *)
Definition on_store {A} (m : M store A) : M env A := λ w,
  let '(r, h) := m (objs w) in (r, {| self := self w; objs := h |}).

Definition self_name : M env string := gets (λ w, name (self w)).
Definition self_model : M env loc := gets (λ w, model (self w)).

Definition _get_method (method : string) : M env bound :=
  try_except
    (m ← self_model; on_store (getattr m method))
    is_AttributeError
    (λ _, n ← self_name;
          raise (HTTPNotImplemented
                   ("Not implemented by underlying model (loaded '" +:+ n +:+ "')"))).

Definition get_metadata : M env value :=
  try_except
    (m ← self_model;
     meth ← on_store (getattr m "get_metadata");
     on_store (call meth []))
    (λ e, is_NotImplementedError e || is_AttributeError e)
    (λ _, n ← self_name;
          mret (VDict
            [ ("id", VStr "0");
              ("name", VStr n);
              ("description",
                VStr ("Could not load description from " +:+
                      "underlying model (loaded '" +:+ n +:+ "')")) ])).

Definition predict_file : list value → M env value :=
  catch_error (λ args,
    meth ← _get_method "predict_file"; on_store (call meth args)).

Definition predict_data : list value → M env value :=
  catch_error (λ args,
    meth ← _get_method "predict_data"; on_store (call meth args)).

Definition predict_url : list value → M env value :=
  catch_error (λ args,
    meth ← _get_method "predict_url"; on_store (call meth args)).

Definition train : list value → M env value :=
  catch_error (λ args,
    meth ← _get_method "train"; on_store (call meth args)).

Definition get_train_args : list value → M env value :=
  catch_error (λ args,
    try_except
      (meth ← _get_method "get_train_args"; on_store (call meth args))
      is_HTTPNotImplemented
      (λ _, mret (VDict []))).

Definition get_test_args : list value → M env value :=
  catch_error (λ args,
    try_except
      (meth ← _get_method "get_test_args"; on_store (call meth args))
      is_HTTPNotImplemented
      (λ _, mret (VDict []))).

End ModelWrapper.

(** ** The wrapper operations, by name *)

Inductive operation :=
| OpPredictFile
| OpPredictData
| OpPredictUrl
| OpTrain
| OpGetMetadata
| OpGetTrainArgs
| OpGetTestArgs.

(** The method of the underlying model that an operation forwards to. *)
Definition method_name (op : operation) : string :=
  match op with
  | OpPredictFile => "predict_file"
  | OpPredictData => "predict_data"
  | OpPredictUrl => "predict_url"
  | OpTrain => "train"
  | OpGetMetadata => "get_metadata"
  | OpGetTrainArgs => "get_train_args"
  | OpGetTestArgs => "get_test_args"
  end.

(** [wrapper.<op>(args...)].  [get_metadata] takes no argument, and gives
    none to the model. *)
Definition invoke (op : operation) (args : list value) : M ModelWrapper.env value :=
  match op with
  | OpPredictFile => ModelWrapper.predict_file args
  | OpPredictData => ModelWrapper.predict_data args
  | OpPredictUrl => ModelWrapper.predict_url args
  | OpTrain => ModelWrapper.train args
  | OpGetMetadata => ModelWrapper.get_metadata
  | OpGetTrainArgs => ModelWrapper.get_train_args args
  | OpGetTestArgs => ModelWrapper.get_test_args args
  end.

(** The arguments the underlying method receives. *)
Definition forwarded (op : operation) (args : list value) : list value :=
  match op with
  | OpGetMetadata => []
  | _ => args
  end.

(** The object that the wrapper of [w] wraps. *)
Definition underlying (w : ModelWrapper.env) : pyobj :=
  deref (ModelWrapper.objs w) (ModelWrapper.model (ModelWrapper.self w)).

(** The underlying model has no attribute of that name. *)
Definition lacks (w : ModelWrapper.env) (a : string) : Prop :=
  attrs (underlying w) !! a = None.

(** The underlying model has a method of that name which, on these
    arguments, raises [e]. *)
Definition method_raises (w : ModelWrapper.env) (a : string)
    (args : list value) (e : exn) : Prop :=
  ∃ body, attrs (underlying w) !! a = Some (Method body) ∧
          (body args (data (underlying w))).1 = Raises e.

(** ** The registry *)

(** What [LOG] was given. *)
Inductive log_record :=
| LogWarning (fmt : string) (arg : exn)
| LogInfo (msg : string).

Section Registry.

(** [L] is the state of the [deepaas.loading] module and of what it reads:
    the installed entry points. *)
Context {L : Type}.

(** The module globals [MODELS] and [MODELS_LOADED], the store, and what the
    module acts on: the log and the discovery source.  [discovery_calls]
    counts the calls of [loading.get_available_models]. *)
Record state := State {
  MODELS : gmap string ModelWrapper.t;
  MODELS_LOADED : bool;
  heap : store;
  LOG : list log_record;
  loading : L;
  discovery_calls : nat;
}.

(** The module as imported: [MODELS = {}], [MODELS_LOADED = False]. *)
Definition imported (l : L) (h : store) : state :=
  {| MODELS := ∅; MODELS_LOADED := false; heap := h; LOG := [];
     loading := l; discovery_calls := 0 |}.

Definition set_MODELS (m : gmap string ModelWrapper.t) (s : state) : state :=
  {| MODELS := m; MODELS_LOADED := MODELS_LOADED s; heap := heap s;
     LOG := LOG s; loading := loading s;
     discovery_calls := discovery_calls s |}.

Definition set_MODELS_LOADED (b : bool) (s : state) : state :=
  {| MODELS := MODELS s; MODELS_LOADED := b; heap := heap s;
     LOG := LOG s; loading := loading s;
     discovery_calls := discovery_calls s |}.

(** [MODELS[k] = w] *)
Definition setitem_MODELS (k : string) (w : ModelWrapper.t) : M state unit :=
  modify (λ s, set_MODELS (<[k := w]> (MODELS s)) s).

Definition log (r : log_record) : M state unit :=
  modify (λ s,
    {| MODELS := MODELS s; MODELS_LOADED := MODELS_LOADED s; heap := heap s;
       LOG := LOG s ++ [r]; loading := loading s;
       discovery_calls := discovery_calls s |}).

(** Code that touches the store only. *)
Definition in_heap {A} (m : M store A) : M state A := λ s,
  let '(r, h) := m (heap s) in
  (r, {| MODELS := MODELS s; MODELS_LOADED := MODELS_LOADED s; heap := h;
         LOG := LOG s; loading := loading s;
         discovery_calls := discovery_calls s |}).

(** [loading.get_available_models()]: it reads the discovery source, may
    create objects, and returns a dict from names to models, or raises. *)
Variable get_available_models : M (L * store) (gmap string loc).

Definition discover : M state (gmap string loc) := λ s,
  let '(r, (l, h)) := get_available_models (loading s, heap s) in
  (r, {| MODELS := MODELS s; MODELS_LOADED := MODELS_LOADED s; heap := h;
         LOG := LOG s; loading := l;
         discovery_calls := S (discovery_calls s) |}).

(** [for x in xs: body] *)
Fixpoint for_each {S A} (xs : list A) (body : A → M S unit) : M S unit :=
  match xs with
  | [] => mret tt
  | x :: xs => body x;; for_each xs body
  end.

Definition register_models : M state unit :=
  loaded ← gets MODELS_LOADED;
  if (loaded : bool) then mret tt
  else
    modify (set_MODELS ∅);;
    try_except
      (found ← discover;
       for_each (map_to_list found) (λ '(name, model),
         setitem_MODELS name (ModelWrapper.init name model)))
      is_Exception
      (λ e, log (LogWarning "Error loading models: %s" e));;
    models ← gets MODELS;
    (if decide (models = ∅)
     then
       log (LogInfo "No models found, loading test model");;
       test_model ← in_heap (instantiate TestModel.cls);
       setitem_MODELS "deepaas-test"
         (ModelWrapper.init "deepaas-test" test_model)
     else mret tt);;
    modify (set_MODELS_LOADED true).

(** The wrapper registered under [k], ready to run one of its methods. *)
Definition registered (s : state) (k : string) : option ModelWrapper.env :=
  (λ w, {| ModelWrapper.self := w; ModelWrapper.objs := heap s |})
    <$> MODELS s !! k.

End Registry.
Arguments state : clear implicits.

(** ** What the claims are stated with *)

(** The outcome is the standardized not-implemented error: werkzeug's
    [NotImplemented]. *)
Definition surfaces_not_implemented {A} (r : result A) : bool :=
  match r with
  | Raises e => is_HTTPNotImplemented e
  | Returns _ => false
  end.

(** The dictionary that [ModelWrapper.get_metadata] falls back to. *)
Definition fallback_metadata (n : string) : value :=
  VDict
    [ ("id", VStr "0");
      ("name", VStr n);
      ("description",
        VStr ("Could not load description from underlying model (loaded '"
              +:+ n +:+ "')")) ].

(** The two descriptions that the HTTP error is raised with. *)
Definition missing_description (n : string) : string :=
  "Not implemented by underlying model (loaded '" +:+ n +:+ "')".
Definition raising_description : string :=
  "Model does not implement this functionality".

(** The operations that only look the method up and call it. *)
Definition forwarding (op : operation) : bool :=
  match op with
  | OpPredictFile | OpPredictData | OpPredictUrl | OpTrain => true
  | _ => false
  end.

(** What an operation gives when the underlying model has no attribute of
    its name; [n] is the name of the wrapper. *)
Definition missing_outcome (op : operation) (n : string) : result value :=
  match op with
  | OpGetMetadata => Returns (fallback_metadata n)
  | OpGetTrainArgs | OpGetTestArgs => Returns (VDict [])
  | _ => Raises (HTTPNotImplemented (missing_description n))
  end.

(** What [catch_error] makes of an outcome. *)
Definition translated {A} (r : result A) : result A :=
  match r with
  | Raises e =>
      if is_NotImplementedError e
      then Raises (HTTPNotImplemented raising_description)
      else Raises e
  | Returns a => Returns a
  end.

(** A computation of the wrapper that leaves the instance as it was. *)
Definition keeps_self {A} (m : M ModelWrapper.env A) : Prop :=
  ∀ w, ModelWrapper.self (m w).2 = ModelWrapper.self w.

(** ** Small cases *)

Definition bare_object : pyobj := {| attrs := ∅; data := VNone |}.

(** A model whose only attribute is the method [a], which raises
    [NotImplementedError]. *)
Definition raising_object (a : string) : pyobj :=
  {| attrs := {[ a := Method (λ _, raise (NotImplementedError "")) ]};
     data := VNone |}.

(** The wrapper named [n] around [o], the only object of the store. *)
Definition wrap (n : string) (o : pyobj) : ModelWrapper.env :=
  {| ModelWrapper.self := ModelWrapper.init n 0; ModelWrapper.objs := [o] |}.

(** The instance that [TestModel()] creates. *)
Definition test_model_object : pyobj :=
  {| attrs := impl <$> members TestModel.cls; data := VNone |}.

(** What the loop of [register_models] makes of the discovered plugins,
    starting from [acc]. *)
Definition wrap_all (acc : gmap string ModelWrapper.t)
    (found : list (string * loc)) : gmap string ModelWrapper.t :=
  foldl (λ acc '(n, m), <[n := ModelWrapper.init n m]> acc) acc found.

(** The registry never says "loaded" while it is empty. *)
Definition registry_inv {L} (s : state L) : Prop :=
  MODELS_LOADED s = true → MODELS s ≠ ∅.

(** The registry holds the placeholder and nothing else: one entry, keyed
    "deepaas-test", for a wrapper of that name around an instance of
    [TestModel]. *)
Definition placeholder_only {L} (s : state L) : Prop :=
  ∃ l, MODELS s = {[ "deepaas-test" := ModelWrapper.init "deepaas-test" l ]} ∧
       heap s !! l = Some test_model_object.

(** A discovery source without plugins, and one that fails. *)
Definition no_plugins : M (unit * store) (gmap string loc) := mret ∅.
Definition failing_discovery : M (unit * store) (gmap string loc) :=
  raise (OtherException "ImportError" "No module named plugin").

(** The wrapper once the method [body] of its model has run on [args]: what
    the method leaves as the model's data is written back, at the model's
    location. *)
Definition written_back (w : ModelWrapper.env) (body : method)
    (args : list value) : ModelWrapper.env :=
  {| ModelWrapper.self := ModelWrapper.self w;
     ModelWrapper.objs :=
       <[ModelWrapper.model (ModelWrapper.self w) :=
           {| attrs := attrs (underlying w);
              data := (body args (data (underlying w))).2 |}]>
       (ModelWrapper.objs w) |}.

(** Every entry of the registry is filed under the name of its wrapper. *)
Definition keys_are_names {L} (s : state L) : Prop :=
  ∀ k w, MODELS s !! k = Some w → ModelWrapper.name w = k.

(** Calls of [register_models] one after the other, each with what discovery
    would do at that time; a call that raises is followed by the next. *)
Definition register_models_each {L}
    (gams : list (M (L * store) (gmap string loc))) (s : state L) : state L :=
  foldl (λ s gam, (register_models gam s).2) s gams.

(** A model whose only attribute is the method [a]: it returns its arguments
    and keeps them, before its former data, as its new data. *)
Definition recording_object (a : string) : pyobj :=
  {| attrs := {[ a := Method (λ args d,
                               (Returns (VList args), VList (d :: args))) ]};
     data := VNone |}.

(** A model whose only attribute is the method [a], which raises [e]. *)
Definition throwing_object (a : string) (e : exn) : pyobj :=
  {| attrs := {[ a := Method (λ _, raise e) ]}; data := VNone |}.

(** A model whose only attribute is [a], and it is not a method. *)
Definition data_object (a : string) : pyobj :=
  {| attrs := {[ a := Data (VInt 1) ]}; data := VNone |}.

(** A discovery source that is interrupted, and one with one plugin. *)
Definition interrupted_discovery : M (unit * store) (gmap string loc) :=
  raise (NonException "KeyboardInterrupt").
Definition one_plugin : M (unit * store) (gmap string loc) := λ σ,
  (Returns {[ "demo" := length σ.2 ]}, (σ.1, σ.2 ++ [bare_object])).

(** ** The wrapper *)

Ltac run :=
  unfold mbind, M_bind, mret, M_ret, raise, gets, modify, try_except; simpl.

Section Wrapper.

Import ModelWrapper.

Implicit Types (w : env) (a : string) (args : list value).

Lemma getattr_missing w a :
  lacks w a →
  on_store (getattr (model (self w)) a) w = (Raises (AttributeError a), w).
Proof.
  unfold lacks, underlying, on_store, getattr. intros ->. by destruct w.
Qed.

Lemma getattr_found w a x :
  attrs (underlying w) !! a = Some x →
  on_store (getattr (model (self w)) a) w = (Returns (model (self w), x), w).
Proof.
  unfold underlying, on_store, getattr. intros ->. by destruct w.
Qed.

Lemma _get_method_missing w a :
  lacks w a →
  _get_method a w
  = (Raises (HTTPNotImplemented (missing_description (name (self w)))), w).
Proof.
  intros H. unfold _get_method, self_model, self_name. run.
  by rewrite (getattr_missing _ _ H).
Qed.

Lemma _get_method_found w a x :
  attrs (underlying w) !! a = Some x →
  _get_method a w = (Returns (model (self w), x), w).
Proof.
  intros H. unfold _get_method, self_model, self_name. run.
  by rewrite (getattr_found _ _ _ H).
Qed.

(** Calling a method that the underlying model has. *)
Lemma call_method w body args :
  on_store (call (model (self w), Method body) args) w
  = ((body args (data (underlying w))).1,
     {| self := self w;
        objs := <[model (self w) :=
                    {| attrs := attrs (underlying w);
                       data := (body args (data (underlying w))).2 |}]>
                (objs w) |}).
Proof.
  unfold on_store, call, underlying. simpl.
  by destruct (body args _).
Qed.

Lemma catch_error_run {S} (f : list value → M S value) args (s : S) :
  catch_error f args s = (translated (f args s).1, (f args s).2).
Proof.
  unfold catch_error. run. destruct (f args s) as [[v|e] s']; simpl; [done|].
  by destruct (is_NotImplementedError e).
Qed.

(** *** The instance is left as it was *)

Lemma keeps_self_ret {A} (x : A) : keeps_self (mret x).
Proof. by intros w. Qed.

Lemma keeps_self_raise {A} e : keeps_self (raise (A := A) e).
Proof. by intros w. Qed.

Lemma keeps_self_gets {A} (f : env → A) : keeps_self (gets f).
Proof. by intros w. Qed.

Lemma keeps_self_on_store {A} (m : M store A) : keeps_self (on_store m).
Proof. intros w. unfold on_store. by destruct (m (objs w)). Qed.

Lemma keeps_self_bind {A B} (m : M env A) (k : A → M env B) :
  keeps_self m → (∀ x, keeps_self (k x)) → keeps_self (m ≫= k).
Proof.
  intros Hm Hk w. run. specialize (Hm w).
  destruct (m w) as [[x|e] w']; simpl in *; [|done].
  by rewrite Hk.
Qed.

Lemma keeps_self_try_except {A} (body : M env A) caught handler :
  keeps_self body → (∀ e, keeps_self (handler e)) →
  keeps_self (try_except body caught handler).
Proof.
  intros Hb Hh w. run. specialize (Hb w).
  destruct (body w) as [[x|e] w']; simpl in *; [done|].
  destruct (caught e); [|done]. by rewrite Hh.
Qed.

Lemma keeps_self_catch_error (f : list value → M env value) args :
  keeps_self (f args) → keeps_self (catch_error f args).
Proof.
  intros Hf. apply keeps_self_try_except; [done|].
  intros e. apply keeps_self_raise.
Qed.

Lemma keeps_self__get_method a : keeps_self (_get_method a).
Proof.
  apply keeps_self_try_except.
  - apply keeps_self_bind; [apply keeps_self_gets|].
    intros m. apply keeps_self_on_store.
  - intros e. apply keeps_self_bind; [apply keeps_self_gets|].
    intros n. apply keeps_self_raise.
Qed.

Lemma keeps_self_forward a args :
  keeps_self (meth ← _get_method a; on_store (call meth args)).
Proof.
  apply keeps_self_bind; [apply keeps_self__get_method|].
  intros meth. apply keeps_self_on_store.
Qed.

Lemma keeps_self_get_metadata : keeps_self get_metadata.
Proof.
  apply keeps_self_try_except.
  - apply keeps_self_bind; [apply keeps_self_gets|]. intros m.
    apply keeps_self_bind; [apply keeps_self_on_store|]. intros meth.
    apply keeps_self_on_store.
  - intros e. apply keeps_self_bind; [apply keeps_self_gets|].
    intros n. apply keeps_self_ret.
Qed.

Lemma keeps_self_get_args a args :
  keeps_self
    (try_except (meth ← _get_method a; on_store (call meth args))
       is_HTTPNotImplemented (λ _, mret (VDict []))).
Proof.
  apply keeps_self_try_except; [apply keeps_self_forward|].
  intros e. apply keeps_self_ret.
Qed.

(** *** A forwarding operation *)

Lemma forward_missing w a args :
  lacks w a →
  catch_error (λ args, meth ← _get_method a; on_store (call meth args)) args w
  = (Raises (HTTPNotImplemented (missing_description (name (self w)))), w).
Proof.
  intros H. rewrite catch_error_run. run.
  by rewrite (_get_method_missing _ _ H).
Qed.

Lemma forward_method w a args body :
  attrs (underlying w) !! a = Some (Method body) →
  (catch_error (λ args, meth ← _get_method a; on_store (call meth args)) args w).1
  = translated (body args (data (underlying w))).1.
Proof.
  intros H. rewrite catch_error_run. run.
  rewrite (_get_method_found _ _ _ H). by rewrite call_method.
Qed.

(** *** [get_train_args] and [get_test_args] *)

Lemma get_args_missing w a args :
  lacks w a →
  catch_error (λ args,
    try_except (meth ← _get_method a; on_store (call meth args))
      is_HTTPNotImplemented (λ _, mret (VDict []))) args w
  = (Returns (VDict []), w).
Proof.
  intros H. rewrite catch_error_run. run.
  by rewrite (_get_method_missing _ _ H).
Qed.

Lemma get_args_raising w a args msg :
  method_raises w a args (NotImplementedError msg) →
  (catch_error (λ args,
     try_except (meth ← _get_method a; on_store (call meth args))
       is_HTTPNotImplemented (λ _, mret (VDict []))) args w).1
  = Raises (HTTPNotImplemented raising_description).
Proof.
  intros (body & H & Hr). rewrite catch_error_run. run.
  rewrite (_get_method_found _ _ _ H), call_method. simpl.
  by rewrite Hr.
Qed.

(** *** [get_metadata] *)

Lemma get_metadata_missing w :
  lacks w "get_metadata" →
  get_metadata w = (Returns (fallback_metadata (name (self w))), w).
Proof.
  intros H. unfold get_metadata, self_model, self_name. run.
  by rewrite (getattr_missing _ _ H).
Qed.

Lemma get_metadata_raising w e :
  method_raises w "get_metadata" [] e →
  is_NotImplementedError e || is_AttributeError e = true →
  (get_metadata w).1 = Returns (fallback_metadata (name (self w))).
Proof.
  intros (body & H & Hr) He. unfold get_metadata, self_model, self_name. run.
  rewrite (getattr_found _ _ _ H), call_method. simpl.
  rewrite Hr. simpl. by rewrite He.
Qed.

(** Any other exception of the model's [get_metadata] goes through. *)
Lemma get_metadata_propagates w e :
  method_raises w "get_metadata" [] e →
  is_NotImplementedError e || is_AttributeError e = false →
  (get_metadata w).1 = Raises e.
Proof.
  intros (body & H & Hr) He. unfold get_metadata, self_model, self_name. run.
  rewrite (getattr_found _ _ _ H), call_method. simpl.
  rewrite Hr. simpl. by rewrite He.
Qed.

(** *** All operations *)

Lemma invoke_missing op args w :
  lacks w (method_name op) →
  invoke op args w = (missing_outcome op (name (self w)), w).
Proof.
  intros H. destruct op; simpl in *;
    first [ by apply forward_missing
          | by apply get_args_missing
          | by apply get_metadata_missing ].
Qed.

Lemma invoke_keeps_self op args : keeps_self (invoke op args).
Proof.
  destruct op; simpl;
    first [ apply keeps_self_get_metadata
          | apply keeps_self_catch_error;
            first [ apply keeps_self_forward | apply keeps_self_get_args ] ].
Qed.

End Wrapper.

(** ** Properties of the wrapper *)

(** C1, as stated, fails: around a model without [get_metadata], the wrapper's
    [get_metadata] returns a dictionary and raises nothing. *)
Lemma missing_get_metadata_returns :
  lacks (wrap "m" bare_object) (method_name OpGetMetadata) ∧
  surfaces_not_implemented (invoke OpGetMetadata [] (wrap "m" bare_object)).1
  = false.
Proof. split; reflexivity. Qed.

(** C1, amended: when the underlying model lacks the method, [predict_file],
    [predict_data], [predict_url] and [train] raise the HTTP not-implemented
    error, whose description names the wrapper; [get_metadata] returns the
    fallback dictionary and [get_train_args] and [get_test_args] return an
    empty dictionary.  Nothing is changed by the call. *)
Theorem missing_method_outcome op args w :
  lacks w (method_name op) →
  invoke op args w =
    (match op with
     | OpPredictFile | OpPredictData | OpPredictUrl | OpTrain =>
         Raises (HTTPNotImplemented
                   ("Not implemented by underlying model (loaded '" +:+
                    ModelWrapper.name (ModelWrapper.self w) +:+ "')"))
     | OpGetMetadata =>
         Returns (fallback_metadata (ModelWrapper.name (ModelWrapper.self w)))
     | OpGetTrainArgs | OpGetTestArgs => Returns (VDict [])
     end, w).
Proof. intros H. rewrite (invoke_missing _ _ _ H). by destruct op. Qed.

Lemma missing_method_outcome_witness :
  lacks (wrap "m" bare_object) (method_name OpPredictFile) ∧
  invoke OpPredictFile [VStr "/tmp/x"] (wrap "m" bare_object)
  = (Raises (HTTPNotImplemented
               "Not implemented by underlying model (loaded 'm')"),
     wrap "m" bare_object).
Proof.
  split; [reflexivity|].
  apply (missing_method_outcome OpPredictFile [VStr "/tmp/x"]
           (wrap "m" bare_object)).
  reflexivity.
Defined.

(** C2, as stated, fails: [get_train_args] returns an empty dictionary when
    the method is missing and raises when it raises [NotImplementedError]; and
    [predict_file] raises the HTTP error with a different description in the
    two cases. *)
Lemma missing_and_raising_differ :
  (lacks (wrap "m" bare_object) "get_train_args" ∧
   method_raises (wrap "m" (raising_object "get_train_args"))
     "get_train_args" [] (NotImplementedError "") ∧
   (invoke OpGetTrainArgs [] (wrap "m" bare_object)).1 = Returns (VDict []) ∧
   (invoke OpGetTrainArgs [] (wrap "m" (raising_object "get_train_args"))).1
   = Raises (HTTPNotImplemented "Model does not implement this functionality"))
  ∧
  (lacks (wrap "m" bare_object) "predict_file" ∧
   method_raises (wrap "m" (raising_object "predict_file"))
     "predict_file" [] (NotImplementedError "") ∧
   (invoke OpPredictFile [] (wrap "m" bare_object)).1
   ≠ (invoke OpPredictFile [] (wrap "m" (raising_object "predict_file"))).1).
Proof.
  split.
  - repeat split; try reflexivity. eexists. split; reflexivity.
  - repeat split; try reflexivity.
    + eexists. split; reflexivity.
    + vm_compute. discriminate.
Qed.

(** C2, amended: for [predict_file], [predict_data], [predict_url] and
    [train] a missing method and a method that raises [NotImplementedError]
    both surface werkzeug's [NotImplemented] (HTTP 501), with two different
    descriptions; for [get_metadata] both give the fallback dictionary; for
    [get_train_args] and [get_test_args] a missing method gives an empty
    dictionary and a raising one the HTTP error. *)
Theorem missing_versus_raising op args wm wr msg :
  lacks wm (method_name op) →
  method_raises wr (method_name op) (forwarded op args)
    (NotImplementedError msg) →
  let missing := (invoke op args wm).1 in
  let raising := (invoke op args wr).1 in
  match op with
  | OpPredictFile | OpPredictData | OpPredictUrl | OpTrain =>
      missing = Raises (HTTPNotImplemented
                  ("Not implemented by underlying model (loaded '" +:+
                   ModelWrapper.name (ModelWrapper.self wm) +:+ "')")) ∧
      raising = Raises (HTTPNotImplemented
                  "Model does not implement this functionality") ∧
      (∃ e e', missing = Raises e ∧ raising = Raises e' ∧
               http_code e = Some 501%Z ∧ http_code e' = Some 501%Z)
  | OpGetMetadata =>
      missing = Returns (fallback_metadata (ModelWrapper.name (ModelWrapper.self wm))) ∧
      raising = Returns (fallback_metadata (ModelWrapper.name (ModelWrapper.self wr)))
  | OpGetTrainArgs | OpGetTestArgs =>
      missing = Returns (VDict []) ∧
      raising = Raises (HTTPNotImplemented
                  "Model does not implement this functionality")
  end.
Proof.
  intros Hm Hr missing raising. subst missing raising.
  rewrite (invoke_missing _ _ _ Hm).
  destruct op; simpl in *;
    first
      [ (* forwarding *)
        destruct Hr as (body & Hb & Hr);
        rewrite (forward_method _ _ _ _ Hb), Hr; simpl;
        split_and!; [done|done|]; do 2 eexists; by split_and!
      | (* get_metadata *)
        split; [done|]; by eapply get_metadata_raising
      | (* get_train_args, get_test_args *)
        split; [done|]; by eapply get_args_raising ].
Qed.

Lemma missing_versus_raising_witness :
  lacks (wrap "m" bare_object) (method_name OpTrain) ∧
  method_raises (wrap "m" (raising_object "train")) (method_name OpTrain)
    (forwarded OpTrain []) (NotImplementedError "") ∧
  (invoke OpTrain [] (wrap "m" bare_object)).1
  = Raises (HTTPNotImplemented
              "Not implemented by underlying model (loaded 'm')") ∧
  (invoke OpTrain [] (wrap "m" (raising_object "train"))).1
  = Raises (HTTPNotImplemented "Model does not implement this functionality").
Proof.
  assert (Hm : lacks (wrap "m" bare_object) (method_name OpTrain))
    by reflexivity.
  assert (Hr : method_raises (wrap "m" (raising_object "train"))
                 (method_name OpTrain) (forwarded OpTrain [])
                 (NotImplementedError ""))
    by (eexists; split; reflexivity).
  split; [exact Hm|]. split; [exact Hr|].
  destruct (missing_versus_raising OpTrain [] _ _ _ Hm Hr) as (H1 & H2 & _).
  split; [exact H1 | exact H2].
Defined.

(** C7: whatever the operation, its arguments and the underlying model,
    the wrapper's name and its reference to the model are after the call
    what they were before it. *)
Theorem invoke_keeps_wrapper op args w :
  ModelWrapper.name (ModelWrapper.self (invoke op args w).2)
  = ModelWrapper.name (ModelWrapper.self w) ∧
  ModelWrapper.model (ModelWrapper.self (invoke op args w).2)
  = ModelWrapper.model (ModelWrapper.self w).
Proof. by rewrite invoke_keeps_self. Qed.

(** C8: when the underlying model lacks the method, no operation lets the
    [AttributeError] of the lookup out: every operation returns a value or
    raises the HTTP not-implemented error. *)
Theorem missing_method_no_attribute_error op args w :
  lacks w (method_name op) →
  (∀ msg, (invoke op args w).1 ≠ Raises (AttributeError msg)) ∧
  ((∃ v, (invoke op args w).1 = Returns v) ∨
   surfaces_not_implemented (invoke op args w).1 = true).
Proof.
  intros H. rewrite (invoke_missing _ _ _ H). simpl.
  destruct op; simpl; split; try done; eauto.
Qed.

Lemma missing_method_no_attribute_error_witness :
  lacks (wrap "m" bare_object) (method_name OpPredictUrl) ∧
  (∀ msg, (invoke OpPredictUrl [VNone] (wrap "m" bare_object)).1
          ≠ Raises (AttributeError msg)) ∧
  ((∃ v, (invoke OpPredictUrl [VNone] (wrap "m" bare_object)).1 = Returns v) ∨
   surfaces_not_implemented
     (invoke OpPredictUrl [VNone] (wrap "m" bare_object)).1 = true).
Proof.
  split; [reflexivity|].
  apply (missing_method_no_attribute_error OpPredictUrl [VNone]
           (wrap "m" bare_object)).
  reflexivity.
Defined.

(** C9: if the underlying model lacks [get_metadata], or its [get_metadata]
    raises [NotImplementedError] or [AttributeError], the wrapper's
    [get_metadata] raises nothing and returns the dictionary with id "0", the
    wrapper's name and the description that says that the description could
    not be loaded. *)
Theorem get_metadata_falls_back w :
  lacks w "get_metadata" ∨
  (∃ msg, method_raises w "get_metadata" [] (NotImplementedError msg)) ∨
  (∃ msg, method_raises w "get_metadata" [] (AttributeError msg)) →
  (ModelWrapper.get_metadata w).1 =
    Returns (VDict
      [ ("id", VStr "0");
        ("name", VStr (ModelWrapper.name (ModelWrapper.self w)));
        ("description",
          VStr ("Could not load description from underlying model (loaded '"
                +:+ ModelWrapper.name (ModelWrapper.self w) +:+ "')")) ]).
Proof.
  intros [H|[[msg H]|[msg H]]].
  - by rewrite (get_metadata_missing _ H).
  - by rewrite (get_metadata_raising _ _ H).
  - by rewrite (get_metadata_raising _ _ H).
Qed.

Lemma get_metadata_falls_back_witness :
  (∃ msg, method_raises (wrap "m" (raising_object "get_metadata"))
            "get_metadata" [] (NotImplementedError msg)) ∧
  (ModelWrapper.get_metadata (wrap "m" (raising_object "get_metadata"))).1 =
    Returns (VDict
      [ ("id", VStr "0");
        ("name", VStr "m");
        ("description",
          VStr "Could not load description from underlying model (loaded 'm')") ]).
Proof.
  assert (H : ∃ msg, method_raises (wrap "m" (raising_object "get_metadata"))
                       "get_metadata" [] (NotImplementedError msg))
    by (exists ""; eexists; split; reflexivity).
  split; [exact H|].
  apply (get_metadata_falls_back (wrap "m" (raising_object "get_metadata"))).
  right. left. exact H.
Defined.

(** C10: [get_train_args] and [get_test_args] return an empty dictionary when
    the underlying model lacks the method, and raise the HTTP not-implemented
    error when the method is there and raises [NotImplementedError]. *)
Theorem get_args_asymmetry op args wm wr msg :
  op = OpGetTrainArgs ∨ op = OpGetTestArgs →
  lacks wm (method_name op) →
  method_raises wr (method_name op) args (NotImplementedError msg) →
  (invoke op args wm).1 = Returns (VDict []) ∧
  (invoke op args wr).1
  = Raises (HTTPNotImplemented "Model does not implement this functionality").
Proof.
  intros [->| ->] Hm Hr; simpl in *.
  - split; [by rewrite (get_args_missing _ _ _ Hm)|].
    by eapply get_args_raising.
  - split; [by rewrite (get_args_missing _ _ _ Hm)|].
    by eapply get_args_raising.
Qed.

Lemma get_args_asymmetry_witness :
  lacks (wrap "m" bare_object) (method_name OpGetTestArgs) ∧
  method_raises (wrap "m" (raising_object "get_test_args"))
    (method_name OpGetTestArgs) [] (NotImplementedError "") ∧
  (invoke OpGetTestArgs [] (wrap "m" bare_object)).1 = Returns (VDict []) ∧
  (invoke OpGetTestArgs [] (wrap "m" (raising_object "get_test_args"))).1
  = Raises (HTTPNotImplemented "Model does not implement this functionality").
Proof.
  assert (Hm : lacks (wrap "m" bare_object) (method_name OpGetTestArgs))
    by reflexivity.
  assert (Hr : method_raises (wrap "m" (raising_object "get_test_args"))
                 (method_name OpGetTestArgs) [] (NotImplementedError ""))
    by (eexists; split; reflexivity).
  split; [exact Hm|]. split; [exact Hr|].
  exact (get_args_asymmetry OpGetTestArgs [] _ _ "" (or_intror eq_refl) Hm Hr).
Defined.

(** ** The registry *)

Section RegistryLemmas.

Context {L : Type}.
Implicit Types (gam : M (L * store) (gmap string loc)) (s : state L).
Implicit Types (found : gmap string loc) (h : store).

Lemma set_MODELS_set_MODELS m m' s :
  set_MODELS m (set_MODELS m' s) = set_MODELS m s.
Proof. done. Qed.

Lemma register_models_loaded gam s :
  MODELS_LOADED s = true → register_models gam s = (Returns tt, s).
Proof. intros H. unfold register_models. run. by rewrite H. Qed.

(** The loop inserts one wrapper per item and changes nothing else. *)
Lemma for_each_setitem (xs : list (string * loc)) s :
  for_each xs (λ '(name, model),
    setitem_MODELS name (ModelWrapper.init name model)) s
  = (Returns tt, set_MODELS (wrap_all (MODELS s) xs) s).
Proof.
  revert s. induction xs as [|[n m] xs IH]; intros s; simpl.
  - by destruct s.
  - unfold setitem_MODELS at 1. run. by rewrite IH.
Qed.

Lemma wrap_all_nonempty acc xs : acc ≠ ∅ → wrap_all acc xs ≠ ∅.
Proof.
  revert acc. induction xs as [|[n m] xs IH]; intros acc H; simpl; [done|].
  apply IH, insert_non_empty.
Qed.

Lemma wrap_all_empty_iff found :
  wrap_all ∅ (map_to_list found) = ∅ ↔ found = ∅.
Proof.
  split.
  - intros H. apply map_to_list_empty_iff.
    destruct (map_to_list found) as [|[n m] xs]; [done|].
    exfalso. revert H. simpl. apply wrap_all_nonempty, insert_non_empty.
  - intros ->. by rewrite map_to_list_empty.
Qed.

Lemma wrap_all_lookup acc xs k :
  NoDup xs.*1 →
  wrap_all acc xs !! k =
    match (list_to_map xs : gmap string loc) !! k with
    | Some m => Some (ModelWrapper.init k m)
    | None => acc !! k
    end.
Proof.
  revert acc. induction xs as [|[n m] xs IH]; intros acc Hnd; simpl in *.
  - by rewrite lookup_empty.
  - apply NoDup_cons in Hnd as [Hn Hnd]. rewrite (IH _ Hnd).
    destruct (decide (n = k)) as [->|Hne].
    + rewrite lookup_insert_eq.
      rewrite (not_elem_of_list_to_map_1 _ _ Hn).
      by rewrite lookup_insert_eq.
    + rewrite !lookup_insert_ne by done. done.
Qed.

(** One wrapper per discovered plugin, under the plugin's name. *)
Lemma wrap_all_discovered found k :
  wrap_all ∅ (map_to_list found) !! k = ModelWrapper.init k <$> found !! k.
Proof.
  rewrite wrap_all_lookup by apply NoDup_fst_map_to_list.
  rewrite list_to_map_to_list, lookup_empty.
  by destruct (found !! k).
Qed.

Lemma instantiate_TestModel h :
  instantiate TestModel.cls h = (Returns (length h), h ++ [test_model_object]).
Proof.
  unfold instantiate.
  destruct (decide (abstractmethods TestModel.cls = ∅)) as [_|Hne]; [done|].
  exfalso. apply Hne. by vm_compute.
Qed.

Lemma lookup_new_object h (o : pyobj) : (h ++ [o]) !! length h = Some o.
Proof. by rewrite lookup_app_r, Nat.sub_diag. Qed.

(** *** The four ways a first call goes *)

Lemma register_models_propagates gam s e l h :
  MODELS_LOADED s = false →
  gam (loading s, heap s) = (Raises e, (l, h)) →
  is_Exception e = false →
  register_models gam s =
    (Raises e,
     {| MODELS := ∅; MODELS_LOADED := false; heap := h; LOG := LOG s;
        loading := l; discovery_calls := S (discovery_calls s) |}).
Proof.
  intros Hl Hd He. unfold register_models, discover. run.
  rewrite Hl, Hd. simpl. by rewrite He, ?Hl.
Qed.

Lemma register_models_caught gam s e l h :
  MODELS_LOADED s = false →
  gam (loading s, heap s) = (Raises e, (l, h)) →
  is_Exception e = true →
  register_models gam s =
    (Returns tt,
     {| MODELS := {[ "deepaas-test" :=
                       ModelWrapper.init "deepaas-test" (length h) ]};
        MODELS_LOADED := true;
        heap := h ++ [test_model_object];
        LOG := (LOG s ++ [LogWarning "Error loading models: %s" e]) ++
               [LogInfo "No models found, loading test model"];
        loading := l; discovery_calls := S (discovery_calls s) |}).
Proof.
  intros Hl Hd He. unfold register_models, discover. run.
  rewrite Hl, Hd. simpl. rewrite He, ?Hl. unfold log. run.
  destruct (decide _) as [_|Hne]; [|done]. run.
  unfold in_heap. simpl. by rewrite instantiate_TestModel.
Qed.

Lemma register_models_none gam s l h :
  MODELS_LOADED s = false →
  gam (loading s, heap s) = (Returns ∅, (l, h)) →
  register_models gam s =
    (Returns tt,
     {| MODELS := {[ "deepaas-test" :=
                       ModelWrapper.init "deepaas-test" (length h) ]};
        MODELS_LOADED := true;
        heap := h ++ [test_model_object];
        LOG := LOG s ++ [LogInfo "No models found, loading test model"];
        loading := l; discovery_calls := S (discovery_calls s) |}).
Proof.
  intros Hl Hd. unfold register_models, discover. run.
  rewrite Hl, Hd, map_to_list_empty. simpl. rewrite ?Hl.
  destruct (decide _) as [_|Hne]; [|done]. unfold log. run.
  unfold in_heap. simpl. by rewrite instantiate_TestModel.
Qed.

Lemma register_models_some gam s found l h :
  MODELS_LOADED s = false →
  gam (loading s, heap s) = (Returns found, (l, h)) →
  found ≠ ∅ →
  register_models gam s =
    (Returns tt,
     {| MODELS := wrap_all ∅ (map_to_list found);
        MODELS_LOADED := true; heap := h; LOG := LOG s;
        loading := l; discovery_calls := S (discovery_calls s) |}).
Proof.
  intros Hl Hd Hne. unfold register_models, discover. run.
  rewrite Hl, Hd, for_each_setitem. simpl. rewrite ?Hl.
  destruct (decide _) as [He|_]; [|done].
  by apply wrap_all_empty_iff in He.
Qed.

(** A call that returns leaves the flag set and the registry non-empty. *)
Lemma register_models_returns gam s s' :
  registry_inv s →
  register_models gam s = (Returns tt, s') →
  MODELS_LOADED s' = true ∧ MODELS s' ≠ ∅.
Proof.
  intros Hinv Hrun.
  destruct (MODELS_LOADED s) eqn:Hl.
  { rewrite (register_models_loaded _ _ Hl) in Hrun.
    injection Hrun as <-. auto. }
  destruct (gam (loading s, heap s)) as [[found|e] [l h]] eqn:Hd.
  - destruct (decide (found = ∅)) as [->|Hne].
    + rewrite (register_models_none _ _ _ _ Hl Hd) in Hrun.
      injection Hrun as <-. simpl. split; [done|]. apply insert_non_empty.
    + rewrite (register_models_some _ _ _ _ _ Hl Hd Hne) in Hrun.
      injection Hrun as <-. simpl. split; [done|].
      by rewrite wrap_all_empty_iff.
  - destruct (is_Exception e) eqn:He.
    + rewrite (register_models_caught _ _ _ _ _ Hl Hd He) in Hrun.
      injection Hrun as <-. simpl. split; [done|]. apply insert_non_empty.
    + by rewrite (register_models_propagates _ _ _ _ _ Hl Hd He) in Hrun.
Qed.

Lemma imported_inv (l : L) h : registry_inv (imported l h).
Proof. by intros ?. Qed.

(** The wrapper of the placeholder gives the metadata of [TestModel]. *)
Lemma placeholder_metadata n h :
  (ModelWrapper.get_metadata
     {| ModelWrapper.self := ModelWrapper.init n (length h);
        ModelWrapper.objs := h ++ [test_model_object] |}).1
  = (TestModel.get_metadata [] VNone).1.
Proof.
  unfold ModelWrapper.get_metadata, ModelWrapper.self_model,
    ModelWrapper.on_store, getattr, call, deref. run.
  rewrite !(list_lookup_total_correct _ _ _ (lookup_new_object h _)).
  reflexivity.
Qed.

End RegistryLemmas.

(** ** Properties of the registry *)

(** C3: once a call of [register_models] has returned, a second call,
    whatever the discovery source then holds or would answer, returns
    without changing anything: the mapping is the one the first call left
    and discovery has not been called again.  What decides it is the flag:
    the first call leaves [MODELS_LOADED] set, and a call that finds it set
    does nothing. *)
Theorem register_models_idempotent {L} (gam gam' : M (L * store) (gmap string loc))
    (s : state L) :
  (register_models gam s).1 = Returns tt →
  let s1 := (register_models gam s).2 in
  let s2 := (register_models gam' s1).2 in
  (register_models gam' s1).1 = Returns tt ∧
  MODELS s2 = MODELS s1 ∧
  discovery_calls s2 = discovery_calls s1 ∧
  s2 = s1 ∧
  MODELS_LOADED s1 = true ∧
  (∀ s0 : state L, MODELS_LOADED s0 = true →
                   register_models gam' s0 = (Returns tt, s0)).
Proof.
  intros Hret s1 s2.
  assert (Hflag : MODELS_LOADED s1 = true).
  { subst s1. destruct (MODELS_LOADED s) eqn:Hl.
    { by rewrite (register_models_loaded _ _ Hl). }
    destruct (gam (loading s, heap s)) as [[found|e] [l h]] eqn:Hd.
    - destruct (decide (found = ∅)) as [->|Hne].
      + by rewrite (register_models_none _ _ _ _ Hl Hd).
      + by rewrite (register_models_some _ _ _ _ _ Hl Hd Hne).
    - destruct (is_Exception e) eqn:He.
      + by rewrite (register_models_caught _ _ _ _ _ Hl Hd He).
      + by rewrite (register_models_propagates _ _ _ _ _ Hl Hd He) in Hret. }
  subst s2. rewrite (register_models_loaded gam' s1 Hflag). simpl.
  split_and!; try done. intros s0. apply register_models_loaded.
Qed.

Lemma register_models_idempotent_witness :
  (register_models failing_discovery (imported tt [])).1 = Returns tt ∧
  register_models no_plugins
    (register_models failing_discovery (imported tt [])).2
  = (Returns tt, (register_models failing_discovery (imported tt [])).2).
Proof.
  assert (H : (register_models failing_discovery (imported tt [])).1
              = Returns tt) by reflexivity.
  split; [exact H|].
  destruct (register_models_idempotent failing_discovery no_plugins
              (imported tt []) H) as (H1 & _ & _ & H2 & _).
  rewrite <- H1 at 1. rewrite <- H2 at 3. apply surjective_pairing.
Defined.

(** C4: when the registry is not loaded yet and discovery returns an empty
    mapping, [register_models] returns and leaves exactly one entry, keyed
    "deepaas-test": a wrapper of that name around a new instance of
    [TestModel], whose metadata is the fixed dictionary. *)
Theorem register_models_placeholder {L} (gam : M (L * store) (gmap string loc))
    (s : state L) l h :
  MODELS_LOADED s = false →
  gam (loading s, heap s) = (Returns ∅, (l, h)) →
  let s' := (register_models gam s).2 in
  (register_models gam s).1 = Returns tt ∧
  dom (MODELS s') = {[ "deepaas-test" ]} ∧
  ∃ w, registered s' "deepaas-test" = Some w ∧
       ModelWrapper.name (ModelWrapper.self w) = "deepaas-test" ∧
       underlying w = test_model_object ∧
       (ModelWrapper.get_metadata w).1 =
         Returns (VDict
           [ ("id", VStr "0");
             ("name", VStr "deepaas-test");
             ("description",
               VStr ("This is not a model at all, just a placeholder " +:+
                     "for testing the API functionality. If you are " +:+
                     "seeing this, it is because DEEPaaS could not " +:+
                     "load a valid model."));
             ("author", VStr "Alvaro Lopez Garcia");
             ("version", VStr "0.0.1") ]).
Proof.
  intros Hl Hd s'. subst s'.
  rewrite (register_models_none _ _ _ _ Hl Hd). simpl.
  split; [done|]. split; [by rewrite dom_singleton_L|].
  unfold registered. simpl. rewrite lookup_singleton_eq. simpl.
  eexists. split; [done|]. simpl. split; [done|]. split.
  - unfold underlying, deref. simpl.
    apply list_lookup_total_correct, lookup_new_object.
  - by rewrite placeholder_metadata.
Qed.

Lemma register_models_placeholder_witness :
  MODELS_LOADED (imported tt []) = false ∧
  no_plugins (loading (imported tt []), heap (imported tt []))
  = (Returns ∅, (tt, [])) ∧
  (register_models no_plugins (imported tt [])).1 = Returns tt ∧
  dom (MODELS (register_models no_plugins (imported tt [])).2)
  = {[ "deepaas-test" ]}.
Proof.
  split; [reflexivity|]. split; [reflexivity|].
  destruct (register_models_placeholder no_plugins (imported tt []) tt []
              eq_refl eq_refl) as (H1 & H2 & _).
  split; [exact H1 | exact H2].
Defined.

(** C5: from a state in which a set flag goes with a non-empty registry (as
    in the module when imported), whatever discovery does, the registry is
    non-empty once [register_models] has returned, and the flag is set.  An
    instance of [Exception] raised by discovery is logged as a warning and
    not propagated; then, and when discovery returns no plugin, the registry
    holds the placeholder; otherwise it holds one wrapper per plugin.  Only an
    exception that is not an [Exception] leaves [register_models]. *)
Theorem register_models_never_empty {L} (gam : M (L * store) (gmap string loc))
    (s : state L) :
  registry_inv s →
  let r := (register_models gam s).1 in
  let s' := (register_models gam s).2 in
  (r = Returns tt → MODELS s' ≠ ∅ ∧ MODELS_LOADED s' = true) ∧
  (∀ e σ, MODELS_LOADED s = false →
          gam (loading s, heap s) = (Raises e, σ) →
          is_Exception e = true →
          r = Returns tt ∧
          LogWarning "Error loading models: %s" e ∈ LOG s' ∧
          placeholder_only s') ∧
  (∀ σ, MODELS_LOADED s = false →
        gam (loading s, heap s) = (Returns ∅, σ) →
        r = Returns tt ∧ placeholder_only s') ∧
  (∀ found σ, MODELS_LOADED s = false →
              gam (loading s, heap s) = (Returns found, σ) →
              found ≠ ∅ →
              r = Returns tt ∧
              ∀ k, MODELS s' !! k = ModelWrapper.init k <$> found !! k) ∧
  (∀ e, r = Raises e → is_Exception e = false).
Proof.
  intros Hinv r s'. subst r s'. split_and!.
  - intros Hr. destruct (register_models gam s) as [r s'] eqn:Hrun.
    simpl in *. subst r.
    destruct (register_models_returns _ _ _ Hinv Hrun). done.
  - intros e [l h] Hl Hd He.
    rewrite (register_models_caught _ _ _ _ _ Hl Hd He). simpl.
    split_and!; [done|set_solver|].
    exists (length h). split; [done|]. apply lookup_new_object.
  - intros [l h] Hl Hd.
    rewrite (register_models_none _ _ _ _ Hl Hd). simpl.
    split; [done|].
    exists (length h). split; [done|]. apply lookup_new_object.
  - intros found [l h] Hl Hd Hne.
    rewrite (register_models_some _ _ _ _ _ Hl Hd Hne). simpl.
    split; [done|]. apply wrap_all_discovered.
  - intros e.
    destruct (MODELS_LOADED s) eqn:Hl.
    { by rewrite (register_models_loaded _ _ Hl). }
    destruct (gam (loading s, heap s)) as [[found|e'] [l h]] eqn:Hd.
    + destruct (decide (found = ∅)) as [->|Hne].
      * by rewrite (register_models_none _ _ _ _ Hl Hd).
      * by rewrite (register_models_some _ _ _ _ _ Hl Hd Hne).
    + destruct (is_Exception e') eqn:He.
      * by rewrite (register_models_caught _ _ _ _ _ Hl Hd He).
      * rewrite (register_models_propagates _ _ _ _ _ Hl Hd He). simpl.
        by intros [= <-].
Qed.

Lemma register_models_never_empty_witness :
  registry_inv (imported tt []) ∧
  MODELS (register_models failing_discovery (imported tt [])).2 ≠ ∅.
Proof.
  assert (Hinv : registry_inv (imported tt []))
    by (intros H; discriminate H).
  split; [exact Hinv|].
  destruct (register_models_never_empty failing_discovery (imported tt [])
              Hinv) as (H & _).
  apply H. reflexivity.
Defined.

(** ** The abstract interface *)

(** C6, as stated, fails: the number of abstract methods of [BaseModel] is
    not six. *)
Lemma BaseModel_not_six : size (abstractmethods BaseModel.cls) ≠ 6.
Proof. vm_compute. discriminate. Qed.

(** C6, amended: [BaseModel] declares exactly seven abstract methods,
    [predict_file], [predict_data], [predict_url], [get_metadata], [train],
    [get_train_args] and [get_test_args]; each raises [NotImplementedError]
    when called with the arguments of its signature, and the class cannot be
    instantiated. *)
Theorem BaseModel_seven_abstract_methods :
  abstractmethods BaseModel.cls =
    {[ "predict_file"; "predict_data"; "predict_url"; "get_metadata";
       "train"; "get_train_args"; "get_test_args" ]} ∧
  size (abstractmethods BaseModel.cls) = 7 ∧
  dom (members BaseModel.cls) = abstractmethods BaseModel.cls ∧
  (∀ d x,
     (BaseModel.predict_file [x] d).1 = Raises (NotImplementedError "") ∧
     (BaseModel.predict_data [x] d).1 = Raises (NotImplementedError "") ∧
     (BaseModel.predict_url [x] d).1 = Raises (NotImplementedError "") ∧
     (BaseModel.get_metadata [] d).1 = Raises (NotImplementedError "") ∧
     (BaseModel.train [x] d).1 = Raises (NotImplementedError "") ∧
     (BaseModel.get_train_args [] d).1 = Raises (NotImplementedError "") ∧
     (BaseModel.get_test_args [] d).1 = Raises (NotImplementedError "")) ∧
  (∀ h, (instantiate BaseModel.cls h).1 = Raises TypeError).
Proof.
  split_and!.
  - by vm_compute.
  - by vm_compute.
  - by vm_compute.
  - intros d x. by split_and!.
  - intros h. unfold instantiate.
    destruct (decide (abstractmethods BaseModel.cls = ∅)) as [He|_]; [|done].
    exfalso. revert He. by vm_compute.
Qed.

(** ** More on the wrapper: a method that is there *)

Section WrapperCalls.

Import ModelWrapper.

Implicit Types (w : env) (a : string) (args : list value).

Lemma forward_run w a args body :
  attrs (underlying w) !! a = Some (Method body) →
  (meth ← _get_method a; on_store (call meth args)) w
  = ((body args (data (underlying w))).1, written_back w body args).
Proof.
  intros H. run. rewrite (_get_method_found _ _ _ H). by rewrite call_method.
Qed.

Lemma forward_data w a args v :
  attrs (underlying w) !! a = Some (Data v) →
  (meth ← _get_method a; on_store (call meth args)) w = (Raises TypeError, w).
Proof.
  intros H. run. rewrite (_get_method_found _ _ _ H).
  unfold on_store. simpl. by destruct w.
Qed.

Lemma catch_forward_run w a args body :
  attrs (underlying w) !! a = Some (Method body) →
  catch_error (λ args, meth ← _get_method a; on_store (call meth args)) args w
  = (translated (body args (data (underlying w))).1, written_back w body args).
Proof. intros H. by rewrite catch_error_run, (forward_run _ _ _ _ H). Qed.

Lemma catch_forward_data w a args v :
  attrs (underlying w) !! a = Some (Data v) →
  catch_error (λ args, meth ← _get_method a; on_store (call meth args)) args w
  = (Raises TypeError, w).
Proof. intros H. by rewrite catch_error_run, (forward_data _ _ _ _ H). Qed.

Lemma get_args_run w a args body :
  attrs (underlying w) !! a = Some (Method body) →
  catch_error (λ args,
    try_except (meth ← _get_method a; on_store (call meth args))
      is_HTTPNotImplemented (λ _, mret (VDict []))) args w
  = (match (body args (data (underlying w))).1 with
     | Returns v => Returns v
     | Raises e =>
         if is_HTTPNotImplemented e then Returns (VDict [])
         else translated (Raises e)
     end, written_back w body args).
Proof.
  intros H. rewrite catch_error_run. unfold try_except.
  rewrite (forward_run _ _ _ _ H).
  destruct (body args _) as [[v|e] d]; simpl; [done|].
  by destruct e.
Qed.

Lemma get_args_data w a args v :
  attrs (underlying w) !! a = Some (Data v) →
  catch_error (λ args,
    try_except (meth ← _get_method a; on_store (call meth args))
      is_HTTPNotImplemented (λ _, mret (VDict []))) args w
  = (Raises TypeError, w).
Proof.
  intros H. rewrite catch_error_run. unfold try_except.
  by rewrite (forward_data _ _ _ _ H).
Qed.

Lemma get_metadata_run w body :
  attrs (underlying w) !! "get_metadata" = Some (Method body) →
  get_metadata w
  = (match (body [] (data (underlying w))).1 with
     | Returns v => Returns v
     | Raises e =>
         if is_NotImplementedError e || is_AttributeError e
         then Returns (fallback_metadata (name (self w)))
         else Raises e
     end, written_back w body []).
Proof.
  intros H. unfold get_metadata, self_model, self_name. run.
  rewrite (getattr_found _ _ _ H), call_method. unfold written_back. simpl.
  destruct (body [] _) as [[v|e] d]; simpl; [done|].
  by destruct e.
Qed.

Lemma get_metadata_data w v :
  attrs (underlying w) !! "get_metadata" = Some (Data v) →
  get_metadata w = (Raises TypeError, w).
Proof.
  intros H. unfold get_metadata, self_model, self_name. run.
  rewrite (getattr_found _ _ _ H). unfold on_store. simpl. by destruct w.
Qed.

(** The state that any operation leaves when the method is there. *)
Lemma invoke_method_state op args w body :
  attrs (underlying w) !! method_name op = Some (Method body) →
  (invoke op args w).2 = written_back w body (forwarded op args).
Proof.
  intros H. destruct op; simpl in *;
    first [ unfold predict_file, predict_data, predict_url, train;
            by rewrite (catch_forward_run _ _ _ _ H)
          | unfold get_train_args, get_test_args;
            by rewrite (get_args_run _ _ _ _ H)
          | by rewrite (get_metadata_run _ _ H) ].
Qed.

Lemma invoke_data op args w v :
  attrs (underlying w) !! method_name op = Some (Data v) →
  invoke op args w = (Raises TypeError, w).
Proof.
  intros H. destruct op; simpl in *;
    first [ by apply (catch_forward_data _ _ _ _ H)
          | by apply (get_args_data _ _ _ _ H)
          | by apply (get_metadata_data _ _ H) ].
Qed.

(** A model that has an attribute is an object of the store. *)
Lemma has_attr_allocated w a x :
  attrs (underlying w) !! a = Some x → model (self w) < length (objs w).
Proof.
  unfold underlying. intros H.
  destruct (decide (model (self w) < length (objs w))) as [|Hge]; [done|].
  assert (E : deref (objs w) (model (self w)) = inhabitant).
  { unfold deref. etrans; [apply list_lookup_total_alt|].
    by rewrite lookup_ge_None_2 by lia. }
  rewrite E in H. change (attrs inhabitant) with (∅ : gmap string attr) in H.
  by rewrite lookup_empty in H.
Qed.

Lemma translated_not_NotImplementedError {A} (r : result A) msg :
  translated r ≠ Raises (NotImplementedError msg).
Proof. destruct r as [v|[]]; simpl; congruence. Qed.

End WrapperCalls.

(** ** Further properties of the wrapper *)

(** X1: when the underlying model has the method and the method returns, the
    operation returns that very value, the method has received the
    operation's arguments ([get_metadata]: none), and the data the method
    leaves is written back to the model. *)
Theorem invoke_returns op args w body v d :
  attrs (underlying w) !! method_name op = Some (Method body) →
  body (forwarded op args) (data (underlying w)) = (Returns v, d) →
  (invoke op args w).1 = Returns v ∧
  underlying (invoke op args w).2
  = {| attrs := attrs (underlying w); data := d |}.
Proof.
  intros H Hb. split.
  - destruct op; simpl in *;
      first [ unfold ModelWrapper.predict_file, ModelWrapper.predict_data,
                ModelWrapper.predict_url, ModelWrapper.train;
              by rewrite (catch_forward_run _ _ _ _ H), Hb
            | unfold ModelWrapper.get_train_args, ModelWrapper.get_test_args;
              by rewrite (get_args_run _ _ _ _ H), Hb
            | by rewrite (get_metadata_run _ _ H), Hb ].
  - rewrite (invoke_method_state _ _ _ _ H).
    unfold written_back. rewrite Hb. unfold underlying at 1, deref. simpl.
    apply list_lookup_total_correct, list_lookup_insert_eq.
    by eapply has_attr_allocated.
Qed.

Lemma invoke_returns_witness :
  attrs (underlying (wrap "m" (recording_object "train")))
    !! method_name OpTrain
  = Some (Method (λ args d, (Returns (VList args), VList (d :: args)))) ∧
  (invoke OpTrain [VInt 3] (wrap "m" (recording_object "train"))).1
  = Returns (VList [VInt 3]) ∧
  data (underlying (invoke OpTrain [VInt 3]
                      (wrap "m" (recording_object "train"))).2)
  = VList [VNone; VInt 3].
Proof.
  assert (H : attrs (underlying (wrap "m" (recording_object "train")))
                !! method_name OpTrain
              = Some (Method (λ args d,
                                (Returns (VList args), VList (d :: args)))))
    by reflexivity.
  split; [exact H|].
  destruct (invoke_returns OpTrain [VInt 3] _ _ (VList [VInt 3])
              (VList [VNone; VInt 3]) H eq_refl) as [H1 H2].
  split; [exact H1|]. by rewrite H2.
Defined.

(** X2: [predict_file], [predict_data], [predict_url] and [train] let every
    exception of the model's method through unchanged, except
    [NotImplementedError]: an [AttributeError] raised inside the method
    reaches the caller as it is, since only the lookup is guarded. *)
Theorem forwarding_passes_exceptions op args w e :
  forwarding op = true →
  method_raises w (method_name op) args e →
  is_NotImplementedError e = false →
  (invoke op args w).1 = Raises e.
Proof.
  intros Hop (body & H & Hr) He.
  destruct op; try discriminate Hop; simpl in *;
    unfold ModelWrapper.predict_file, ModelWrapper.predict_data,
      ModelWrapper.predict_url, ModelWrapper.train;
    rewrite (catch_forward_run _ _ _ _ H); simpl; rewrite Hr; simpl;
    by rewrite He.
Qed.

Lemma forwarding_passes_exceptions_witness :
  forwarding OpPredictData = true ∧
  method_raises
    (wrap "m" (throwing_object "predict_data" (AttributeError "shape")))
    (method_name OpPredictData) [VNone] (AttributeError "shape") ∧
  (invoke OpPredictData [VNone]
     (wrap "m" (throwing_object "predict_data" (AttributeError "shape")))).1
  = Raises (AttributeError "shape").
Proof.
  assert (Hr : method_raises
                 (wrap "m" (throwing_object "predict_data"
                              (AttributeError "shape")))
                 (method_name OpPredictData) [VNone] (AttributeError "shape"))
    by (eexists; split; reflexivity).
  split; [reflexivity|]. split; [exact Hr|].
  exact (forwarding_passes_exceptions OpPredictData [VNone] _ _
           eq_refl Hr eq_refl).
Defined.

(** X3: [get_train_args] and [get_test_args] answer an empty dictionary when
    the model's own method raises werkzeug's [NotImplemented]; an exception
    that is neither that nor [NotImplementedError] goes through unchanged. *)
Theorem get_args_exceptions op args w e :
  op = OpGetTrainArgs ∨ op = OpGetTestArgs →
  method_raises w (method_name op) args e →
  is_NotImplementedError e = false →
  (invoke op args w).1 =
    if is_HTTPNotImplemented e then Returns (VDict []) else Raises e.
Proof.
  intros Hop (body & H & Hr) He.
  destruct Hop as [-> | ->]; simpl in *;
    unfold ModelWrapper.get_train_args, ModelWrapper.get_test_args;
    rewrite (get_args_run _ _ _ _ H); simpl; rewrite Hr;
    destruct (is_HTTPNotImplemented e); [done| |done|]; simpl;
    by rewrite He.
Qed.

Lemma get_args_exceptions_witness :
  method_raises
    (wrap "m" (throwing_object "get_train_args" (HTTPNotImplemented "no")))
    (method_name OpGetTrainArgs) [] (HTTPNotImplemented "no") ∧
  (invoke OpGetTrainArgs []
     (wrap "m" (throwing_object "get_train_args" (HTTPNotImplemented "no")))).1
  = Returns (VDict []).
Proof.
  assert (Hr : method_raises
                 (wrap "m" (throwing_object "get_train_args"
                              (HTTPNotImplemented "no")))
                 (method_name OpGetTrainArgs) [] (HTTPNotImplemented "no"))
    by (eexists; split; reflexivity).
  split; [exact Hr|].
  exact (get_args_exceptions OpGetTrainArgs [] _ _
           (or_introl eq_refl) Hr eq_refl).
Defined.

(** X4: when the name of the method resolves, on the underlying model, to an
    attribute that is not callable, every operation raises [TypeError], and
    nothing is changed; [get_metadata] does not fall back then. *)
Theorem invoke_not_callable op args w v :
  attrs (underlying w) !! method_name op = Some (Data v) →
  invoke op args w = (Raises TypeError, w).
Proof. apply invoke_data. Qed.

Lemma invoke_not_callable_witness :
  attrs (underlying (wrap "m" (data_object "get_metadata")))
    !! method_name OpGetMetadata = Some (Data (VInt 1)) ∧
  invoke OpGetMetadata [] (wrap "m" (data_object "get_metadata"))
  = (Raises TypeError, wrap "m" (data_object "get_metadata")).
Proof.
  split; [reflexivity|].
  apply (invoke_not_callable OpGetMetadata []
           (wrap "m" (data_object "get_metadata")) (VInt 1)).
  reflexivity.
Defined.

(** X5: no operation of the wrapper ever raises [NotImplementedError],
    whatever the underlying model is and does. *)
Theorem invoke_never_NotImplementedError op args w msg :
  (invoke op args w).1 ≠ Raises (NotImplementedError msg).
Proof.
  destruct (attrs (underlying w) !! method_name op) as [[body|v]|] eqn:H.
  - destruct op; simpl in *;
      first [ unfold ModelWrapper.predict_file, ModelWrapper.predict_data,
                ModelWrapper.predict_url, ModelWrapper.train;
              rewrite (catch_forward_run _ _ _ _ H); simpl;
              apply translated_not_NotImplementedError
            | unfold ModelWrapper.get_train_args, ModelWrapper.get_test_args;
              rewrite (get_args_run _ _ _ _ H); simpl;
              destruct (body args _) as [[x|e] d]; simpl; [done|];
              destruct e; simpl; congruence
            | rewrite (get_metadata_run _ _ H); simpl;
              destruct (body [] _) as [[x|e] d]; simpl; [done|];
              destruct e; simpl; congruence ].
  - rewrite (invoke_data _ _ _ _ H). simpl. congruence.
  - rewrite (invoke_missing _ _ _ H). destruct op; simpl; congruence.
Qed.

(** X6: an operation changes nothing in the store but the data of the
    wrapped model: the store keeps its size, every other object is as it was,
    and the model keeps its attributes. *)
Theorem invoke_store_frame op args w :
  length (ModelWrapper.objs (invoke op args w).2)
  = length (ModelWrapper.objs w) ∧
  (∀ l, l ≠ ModelWrapper.model (ModelWrapper.self w) →
        ModelWrapper.objs (invoke op args w).2 !! l
        = ModelWrapper.objs w !! l) ∧
  attrs (underlying (invoke op args w).2) = attrs (underlying w).
Proof.
  destruct (attrs (underlying w) !! method_name op) as [[body|v]|] eqn:H.
  - rewrite (invoke_method_state _ _ _ _ H). unfold written_back. simpl.
    split_and!.
    + apply length_insert.
    + intros l Hl. by apply list_lookup_insert_ne.
    + unfold underlying at 1, deref. simpl.
      match goal with
      | |- attrs ?o = _ =>
          assert (E : o = {| attrs := attrs (underlying w);
                             data := (body (forwarded op args)
                                        (data (underlying w))).2 |})
      end.
      { apply list_lookup_total_correct, list_lookup_insert_eq.
        by eapply has_attr_allocated. }
      by rewrite E.
  - by rewrite (invoke_data _ _ _ _ H).
  - by rewrite (invoke_missing _ _ _ H).
Qed.

(** X7: [catch_error] keeps what the decorated function does to the state,
    and changes the outcome of a call only if it is a
    [NotImplementedError]: returned values and other exceptions, werkzeug's
    included, are left as they are. *)
Theorem catch_error_transparent {S} (f : list value → M S value) args (s : S) :
  is_NotImplementedError
    (match (f args s).1 with Raises e => e | Returns _ => TypeError end)
  = false →
  catch_error f args s = f args s.
Proof.
  intros H. rewrite catch_error_run.
  destruct (f args s) as [[v|e] s']; simpl in *; [done|]. by rewrite H.
Qed.

Lemma catch_error_transparent_witness :
  catch_error (λ args, raise (S := unit) (HTTPNotImplemented "x")) [] tt
  = (Raises (HTTPNotImplemented "x"), tt).
Proof.
  apply (catch_error_transparent
           (λ args, raise (S := unit) (HTTPNotImplemented "x")) [] tt).
  reflexivity.
Defined.

(** X8: through a wrapper, an instance of [TestModel] answers the HTTP
    not-implemented error to [predict_file], [predict_data] and [predict_url]
    called with one argument and to [train] called with any arguments, an
    empty dictionary to [get_train_args] and [get_test_args], and [TypeError]
    to a prediction called with no argument. *)
Theorem TestModel_through_wrapper w x args :
  underlying w = test_model_object →
  (invoke OpPredictFile [x] w).1
  = Raises (HTTPNotImplemented "Model does not implement this functionality") ∧
  (invoke OpPredictData [x] w).1
  = Raises (HTTPNotImplemented "Model does not implement this functionality") ∧
  (invoke OpPredictUrl [x] w).1
  = Raises (HTTPNotImplemented "Model does not implement this functionality") ∧
  (invoke OpTrain args w).1
  = Raises (HTTPNotImplemented "Model does not implement this functionality") ∧
  (invoke OpGetTrainArgs args w).1 = Returns (VDict []) ∧
  (invoke OpGetTestArgs args w).1 = Returns (VDict []) ∧
  (invoke OpPredictFile [] w).1 = Raises TypeError.
Proof.
  intros Hu.
  assert (Hm : ∀ a body,
            attrs test_model_object !! a = Some (Method body) →
            attrs (underlying w) !! a = Some (Method body))
    by (intros a body; by rewrite Hu).
  simpl. unfold ModelWrapper.predict_file, ModelWrapper.predict_data,
    ModelWrapper.predict_url, ModelWrapper.train,
    ModelWrapper.get_train_args, ModelWrapper.get_test_args.
  split_and!.
  - by rewrite (catch_forward_run _ _ _ _ (Hm "predict_file" TestModel.predict_file eq_refl)).
  - by rewrite (catch_forward_run _ _ _ _ (Hm "predict_data" TestModel.predict_data eq_refl)).
  - by rewrite (catch_forward_run _ _ _ _ (Hm "predict_url" TestModel.predict_url eq_refl)).
  - by rewrite (catch_forward_run _ _ _ _ (Hm "train" TestModel.train eq_refl)).
  - by rewrite (get_args_run _ _ _ _ (Hm "get_train_args" TestModel.get_train_args eq_refl)).
  - by rewrite (get_args_run _ _ _ _ (Hm "get_test_args" TestModel.get_test_args eq_refl)).
  - by rewrite (catch_forward_run _ _ _ _ (Hm "predict_file" TestModel.predict_file eq_refl)).
Qed.

Lemma TestModel_through_wrapper_witness :
  underlying (wrap "deepaas-test" test_model_object) = test_model_object ∧
  (invoke OpPredictFile [VStr "/tmp/x"]
     (wrap "deepaas-test" test_model_object)).1
  = Raises (HTTPNotImplemented "Model does not implement this functionality").
Proof.
  split; [reflexivity|].
  destruct (TestModel_through_wrapper (wrap "deepaas-test" test_model_object)
              (VStr "/tmp/x") [] eq_refl) as [H _].
  exact H.
Defined.

(** ** Further properties of the registry *)

Section RegistryCalls.

Context {L : Type}.
Implicit Types (gam : M (L * store) (gmap string loc)) (s : state L).

(** What a call does, by the flag and by what discovery does. *)
Lemma register_models_cases gam s (P : result unit * state L → Prop) :
  (MODELS_LOADED s = true → P (Returns tt, s)) →
  (∀ e l h, MODELS_LOADED s = false →
     gam (loading s, heap s) = (Raises e, (l, h)) → is_Exception e = false →
     P (Raises e,
        {| MODELS := ∅; MODELS_LOADED := false; heap := h; LOG := LOG s;
           loading := l; discovery_calls := S (discovery_calls s) |})) →
  (∀ e l h, MODELS_LOADED s = false →
     gam (loading s, heap s) = (Raises e, (l, h)) → is_Exception e = true →
     P (Returns tt,
        {| MODELS := {[ "deepaas-test" :=
                          ModelWrapper.init "deepaas-test" (length h) ]};
           MODELS_LOADED := true;
           heap := h ++ [test_model_object];
           LOG := (LOG s ++ [LogWarning "Error loading models: %s" e]) ++
                  [LogInfo "No models found, loading test model"];
           loading := l; discovery_calls := S (discovery_calls s) |})) →
  (∀ l h, MODELS_LOADED s = false →
     gam (loading s, heap s) = (Returns ∅, (l, h)) →
     P (Returns tt,
        {| MODELS := {[ "deepaas-test" :=
                          ModelWrapper.init "deepaas-test" (length h) ]};
           MODELS_LOADED := true;
           heap := h ++ [test_model_object];
           LOG := LOG s ++ [LogInfo "No models found, loading test model"];
           loading := l; discovery_calls := S (discovery_calls s) |})) →
  (∀ found l h, MODELS_LOADED s = false →
     gam (loading s, heap s) = (Returns found, (l, h)) → found ≠ ∅ →
     P (Returns tt,
        {| MODELS := wrap_all ∅ (map_to_list found);
           MODELS_LOADED := true; heap := h; LOG := LOG s;
           loading := l; discovery_calls := S (discovery_calls s) |})) →
  P (register_models gam s).
Proof.
  intros Hloaded Hprop Hcaught Hnone Hsome.
  destruct (MODELS_LOADED s) eqn:Hl.
  { rewrite (register_models_loaded _ _ Hl). auto. }
  destruct (gam (loading s, heap s)) as [[found|e] [l h]] eqn:Hd.
  - destruct (decide (found = ∅)) as [->|Hne].
    + rewrite (register_models_none _ _ _ _ Hl Hd). auto.
    + rewrite (register_models_some _ _ _ _ _ Hl Hd Hne). auto.
  - destruct (is_Exception e) eqn:He.
    + rewrite (register_models_caught _ _ _ _ _ Hl Hd He). auto.
    + rewrite (register_models_propagates _ _ _ _ _ Hl Hd He). auto.
Qed.

Lemma register_models_inv gam s :
  registry_inv s → registry_inv (register_models gam s).2.
Proof.
  intros Hinv. apply (register_models_cases gam s
                        (λ out, registry_inv out.2)); unfold registry_inv; simpl.
  - done.
  - done.
  - intros. apply insert_non_empty.
  - intros. apply insert_non_empty.
  - intros found l h _ _ Hne _. by rewrite wrap_all_empty_iff.
Qed.

End RegistryCalls.

(** X9: when discovery returns at least one plugin, the registry holds the
    names of the plugins and no other, no placeholder is created (the store
    is the one discovery left) and nothing is logged. *)
Theorem register_models_plugins {L} (gam : M (L * store) (gmap string loc))
    (s : state L) found l h :
  MODELS_LOADED s = false →
  gam (loading s, heap s) = (Returns found, (l, h)) →
  found ≠ ∅ →
  dom (MODELS (register_models gam s).2) = dom found ∧
  heap (register_models gam s).2 = h ∧
  LOG (register_models gam s).2 = LOG s.
Proof.
  intros Hl Hd Hne. rewrite (register_models_some _ _ _ _ _ Hl Hd Hne). simpl.
  split; [|done]. apply set_eq. intros k.
  rewrite !elem_of_dom, wrap_all_discovered. apply fmap_is_Some.
Qed.

Lemma register_models_plugins_witness :
  MODELS_LOADED (imported tt []) = false ∧
  one_plugin (loading (imported tt []), heap (imported tt []))
  = (Returns {[ "demo" := 0 ]}, (tt, [bare_object])) ∧
  ({[ "demo" := 0 ]} : gmap string loc) ≠ ∅ ∧
  dom (MODELS (register_models one_plugin (imported tt [])).2)
  = dom ({[ "demo" := 0 ]} : gmap string loc).
Proof.
  assert (Hne : ({[ "demo" := 0 ]} : gmap string loc) ≠ ∅)
    by (vm_compute; discriminate).
  split; [reflexivity|]. split; [reflexivity|]. split; [exact Hne|].
  destruct (register_models_plugins one_plugin (imported tt [])
              {[ "demo" := 0 ]} tt [bare_object] eq_refl eq_refl Hne)
    as [H _].
  exact H.
Defined.

(** X10: [register_models] keeps the registry keyed by the names of its
    wrappers: if every entry is filed under its wrapper's name before a call,
    so it is after it. *)
Theorem register_models_keys_are_names {L}
    (gam : M (L * store) (gmap string loc)) (s : state L) :
  keys_are_names s → keys_are_names (register_models gam s).2.
Proof.
  intros Hk. apply (register_models_cases gam s
                      (λ out, keys_are_names out.2));
    unfold keys_are_names; simpl.
  - done.
  - intros e l h _ _ _ k w. by rewrite lookup_empty.
  - intros e l h _ _ _ k w [<- <-]%lookup_singleton_Some. done.
  - intros l h _ _ k w [<- <-]%lookup_singleton_Some. done.
  - intros found l h _ _ _ k w. rewrite wrap_all_discovered.
    destruct (found !! k); simpl; [|done]. by intros [= <-].
Qed.

Lemma register_models_keys_are_names_witness :
  keys_are_names (imported tt []) ∧
  keys_are_names (register_models one_plugin (imported tt [])).2.
Proof.
  assert (H : keys_are_names (imported tt []))
    by (intros k w Hkw; discriminate Hkw).
  split; [exact H|].
  exact (register_models_keys_are_names one_plugin (imported tt []) H).
Defined.

(** X11: a call that finds the flag unset starts from an empty registry:
    whatever [MODELS] held is dropped, and the result does not depend on
    it. *)
Theorem register_models_drops_stale {L} (gam : M (L * store) (gmap string loc))
    (s : state L) m :
  MODELS_LOADED s = false →
  register_models gam (set_MODELS m s) = register_models gam s.
Proof.
  intros Hl. unfold register_models.
  unfold mbind, M_bind, gets, modify. simpl. by rewrite Hl.
Qed.

Lemma register_models_drops_stale_witness :
  MODELS_LOADED (imported tt []) = false ∧
  register_models no_plugins
    (set_MODELS {[ "old" := ModelWrapper.init "old" 7 ]} (imported tt []))
  = register_models no_plugins (imported tt []).
Proof.
  split; [reflexivity|].
  apply (register_models_drops_stale no_plugins (imported tt [])).
  reflexivity.
Defined.

(** X12: a call of [register_models] calls discovery exactly once when the
    flag is unset and not at all when it is set. *)
Theorem register_models_discovery_calls {L}
    (gam : M (L * store) (gmap string loc)) (s : state L) :
  discovery_calls (register_models gam s).2 =
    if MODELS_LOADED s then discovery_calls s else S (discovery_calls s).
Proof.
  apply (register_models_cases gam s
           (λ out, discovery_calls out.2 =
                   if MODELS_LOADED s then discovery_calls s
                   else S (discovery_calls s))); simpl.
  - by intros ->.
  - by intros e l h -> _ _.
  - by intros e l h -> _ _.
  - by intros l h -> _.
  - by intros found l h -> _ _.
Qed.

(** X13: a call that raises leaves the flag unset and the registry empty, and
    what it raises is no instance of [Exception]; the next call calls
    discovery again. *)
Theorem register_models_interrupted {L}
    (gam gam' : M (L * store) (gmap string loc)) (s : state L) e :
  (register_models gam s).1 = Raises e →
  let s' := (register_models gam s).2 in
  is_Exception e = false ∧
  MODELS_LOADED s' = false ∧
  MODELS s' = ∅ ∧
  discovery_calls (register_models gam' s').2 = S (S (discovery_calls s)).
Proof.
  apply (register_models_cases gam s
           (λ out, out.1 = Raises e →
                   is_Exception e = false ∧
                   MODELS_LOADED out.2 = false ∧
                   MODELS out.2 = ∅ ∧
                   discovery_calls (register_models gam' out.2).2
                   = S (S (discovery_calls s)))); simpl; try done.
  intros e' l h _ _ He [= ->]. split_and!; try done.
  apply (register_models_cases gam' _
           (λ out, discovery_calls out.2 = S (S (discovery_calls s))));
    simpl; done.
Qed.

Lemma register_models_interrupted_witness :
  (register_models interrupted_discovery (imported tt [])).1
  = Raises (NonException "KeyboardInterrupt") ∧
  MODELS_LOADED (register_models interrupted_discovery (imported tt [])).2
  = false ∧
  discovery_calls
    (register_models no_plugins
       (register_models interrupted_discovery (imported tt [])).2).2 = 2.
Proof.
  assert (H : (register_models interrupted_discovery (imported tt [])).1
              = Raises (NonException "KeyboardInterrupt")) by reflexivity.
  split; [exact H|].
  destruct (register_models_interrupted interrupted_discovery no_plugins
              (imported tt []) _ H) as (_ & H1 & _ & H2).
  split; [exact H1 | exact H2].
Defined.
